(** * The echo service of [app/main.py]

    A shallow embedding of the two request handlers of the service, of the
    route table that the decorators of [main.py] build, and of the router
    that serves it, followed by the properties of the service. *)

From Stdlib Require Import Strings.String Strings.Ascii Lists.List Bool.Bool ZArith.ZArith Lia.
Import ListNotations.

Local Open Scope string_scope.
Local Open Scope list_scope.

(** ** Python values *)

Module Py.

(** The values a handler can put in its answer: the part of Python's
    data model that serialises to the wire format. A [str] is a
    sequence of characters. *)
Inductive value : Type :=
| VNone
| VBool (b : bool)
| VInt (z : Z)
| VStr (s : string).

(** A [dict] with [str] keys, its items in insertion order. *)
Definition dict : Type := list (string * value).

(** [d.get(k)] *)
Fixpoint get (k : string) (d : dict) : option value :=
  match d with
  | [] => None
  | (k', v) :: d' => if String.eqb k k' then Some v else get k d'
  end.

(** Exceptions a call can raise. *)
Inductive exn : Type :=
| TypeError (msg : string).

(** The outcome of running Python code: a value, or an exception that
    was not caught. *)
Inductive result (A : Type) : Type :=
| Return (a : A)
| Raise (e : exn).

Arguments Return {A} a.
Arguments Raise {A} e.

Definition bind {A B : Type} (m : result A) (k : A -> result B) : result B :=
  match m with
  | Return a => k a
  | Raise e => Raise e
  end.

(** The keyword arguments of a call. *)
Definition kwargs : Type := list (string * string).

End Py.

Notation "x <- m ;; k" := (Py.bind m (fun x => k))
  (at level 61, m at next level, right associativity).

(** ** The handlers of [main.py] *)

(** [def echo(): return {"message": "Hello, World!"}] *)
Definition echo (_ : unit) : Py.dict :=
  [("message", Py.VStr "Hello, World!")].

(** [def echo_name(name: str): return {"message": f"Hello, {name}!"}]

    The f-string joins the literal ["Hello, "], the formatted value of
    [name] (for a [str], the string itself) and the literal ["!"]. *)
Definition echo_name (name : string) : Py.dict :=
  [("message", Py.VStr ("Hello, " ++ name ++ "!"))].

(** The framework calls a handler with the path parameters as keyword
    arguments; a function called without one of its required arguments
    raises [TypeError]. *)
Definition call_echo (kw : Py.kwargs) : Py.result Py.dict :=
  match kw with
  | [] => Py.Return (echo tt)
  | _ :: _ => Py.Raise (Py.TypeError "echo() got an unexpected keyword argument")
  end.

Definition call_echo_name (kw : Py.kwargs) : Py.result Py.dict :=
  match kw with
  | [(k, v)] =>
      if String.eqb k "name" then Py.Return (echo_name v)
      else Py.Raise (Py.TypeError "echo_name() got an unexpected keyword argument")
  | [] => Py.Raise (Py.TypeError "echo_name() missing 1 required positional argument: 'name'")
  | _ :: _ :: _ => Py.Raise (Py.TypeError "echo_name() got an unexpected keyword argument")
  end.

(** ** The route table *)

(** One entry per decorated function: the HTTP method of the decorator,
    the path template given to it, and the decorated function. *)
Record route : Type := Route {
  route_method : string;
  route_path : string;
  route_endpoint : Py.kwargs -> Py.result Py.dict
}.

(** [@app.get("/echo")] and [@app.get("/echo/{name}")], in the order of
    the file. *)
Definition app : list route :=
  [ Route "GET" "/echo" call_echo;
    Route "GET" "/echo/{name}" call_echo_name ].

(** ** The router

    [main.py] builds its application object from the [FastAPI] class of
    the web framework, whose code is not part of the repository's
    sources. The router below is the one the specification describes: it
    maps a request to a handler by method and path, a parameter of a path
    template binds one non-empty path segment, and a request that no
    handler serves gets the framework's default response. *)

Module Router.

(** Modelled from the spec: the request the missing web layer hands to
    the router, an HTTP method with a percent-decoded path. *)
Record request : Type := Request {
  req_method : string;
  req_path : string
}.

(** Modelled from the spec: the response of the missing framework,
    either the reply of a handler, with its status and payload, or a
    default response of the framework, of which only the status is
    specified. *)
Inductive response : Type :=
| Reply (status : Z) (body : Py.dict)
| Default (status : Z).

(** Modelled from the spec: the framework's splitting of a path, which
    is missing from the sources; a path segment is the portion of a path
    between slashes. *)
Fixpoint split_slash (s : string) : list string :=
  match s with
  | EmptyString => [EmptyString]
  | String c rest =>
      if Ascii.eqb c "/" then EmptyString :: split_slash rest
      else match split_slash rest with
           | [] => [String c EmptyString]
           | seg :: segs => String c seg :: segs
           end
  end.

(** Modelled from the spec: the segments of a path of the missing
    router; a path starts with a slash and its segments follow. *)
Definition segments (path : string) : option (list string) :=
  match path with
  | String c rest => if Ascii.eqb c "/" then Some (split_slash rest) else None
  | EmptyString => None
  end.

(** Modelled from the spec: a segment of a path template of the missing
    router, literal text or a parameter written in braces. *)
Inductive template_segment : Type :=
| Lit (text : string)
| Param (name : string).

(** [all_but_last s] is [Some s'] when [s] is [s'] followed by a closing
    brace. *)
Fixpoint all_but_last (s : string) : option string :=
  match s with
  | EmptyString => None
  | String c rest =>
      match rest with
      | EmptyString => if Ascii.eqb c "}" then Some EmptyString else None
      | String _ _ => option_map (String c) (all_but_last rest)
      end
  end.

(** Modelled from the spec: the reading of one segment of a path
    template by the missing router, [{name}] being a parameter. *)
Definition parse_segment (s : string) : template_segment :=
  match s with
  | String c rest =>
      if Ascii.eqb c "{" then
        match all_but_last rest with
        | Some name => Param name
        | None => Lit s
        end
      else Lit s
  | EmptyString => Lit s
  end.

(** Modelled from the spec: the reading of a path template by the
    missing router. *)
Definition compile_path (template : string) : option (list template_segment) :=
  option_map (map parse_segment) (segments template).

(** Modelled from the spec: the matching of a path against a template by
    the missing router; literal segments must be equal and a parameter
    binds a non-empty segment. *)
Fixpoint match_segments (tpl : list template_segment) (segs : list string)
  : option Py.kwargs :=
  match tpl, segs with
  | [], [] => Some []
  | Lit text :: tpl', seg :: segs' =>
      if String.eqb text seg then match_segments tpl' segs' else None
  | Param name :: tpl', seg :: segs' =>
      if String.eqb seg EmptyString then None
      else option_map (cons (name, seg)) (match_segments tpl' segs')
  | _, _ => None
  end.

(** Modelled from the spec: whether a path matches a path template in
    the missing router, and the parameters it binds. *)
Definition match_path (template path : string) : option Py.kwargs :=
  match compile_path template, segments path with
  | Some tpl, Some segs => match_segments tpl segs
  | _, _ => None
  end.

(** Modelled from the spec: a route of the missing router serves a
    request when the method is the route's and the path matches. *)
Definition full_match (req : request) (r : route) : option Py.kwargs :=
  if String.eqb (route_method r) (req_method req)
  then match_path (route_path r) (req_path req)
  else None.

(** Modelled from the spec: the search of the missing router for the
    first route that serves a request. *)
Fixpoint find_route (routes : list route) (req : request)
  : option (route * Py.kwargs) :=
  match routes with
  | [] => None
  | r :: routes' =>
      match full_match req r with
      | Some kw => Some (r, kw)
      | None => find_route routes' req
      end
  end.

(** Modelled from the spec: whether some route of the missing router
    has a template that the path matches, whatever the method. *)
Definition path_known (routes : list route) (path : string) : bool :=
  existsb (fun r => match match_path (route_path r) path with
                    | Some _ => true
                    | None => false
                    end) routes.

(** Modelled from the spec: the dispatch of the missing router. The
    handler of the first route that serves the request is called and its
    payload sent with status 200; otherwise the answer is the default
    405 when the path is known under another method and the default 404
    when it is not. An exception of the handler is not caught. *)
Definition dispatch (routes : list route) (req : request) : Py.result response :=
  match find_route routes req with
  | Some (r, kw) => body <- route_endpoint r kw ;; Py.Return (Reply 200 body)
  | None =>
      Py.Return (Default (if path_known routes (req_path req) then 405 else 404)%Z)
  end.


End Router.

Import Router.

(** ** Reading a greeting back *)

(** The [message] field of a payload, when it is a string. *)
Definition message_of (d : Py.dict) : option string :=
  match Py.get "message" d with
  | Some (Py.VStr s) => Some s
  | _ => None
  end.

(** [strip_prefix p s] is [Some r] when [s] is [p] followed by [r]. *)
Fixpoint strip_prefix (p s : string) : option string :=
  match p, s with
  | EmptyString, _ => Some s
  | String a p', String b s' => if Ascii.eqb a b then strip_prefix p' s' else None
  | String _ _, EmptyString => None
  end.

(** [strip_suffix suf s] is [Some r] when [s] is [r] followed by [suf]. *)
Fixpoint strip_suffix (suf s : string) : option string :=
  if String.eqb s suf then Some EmptyString
  else match s with
       | EmptyString => None
       | String c s' => option_map (String c) (strip_suffix suf s')
       end.

(** The name a greeting was made from: the greeting without its prefix
    ["Hello, "] and its suffix ["!"]. *)
Definition recover_name (msg : string) : option string :=
  match strip_prefix "Hello, " msg with
  | Some rest => strip_suffix "!" rest
  | None => None
  end.

(** A path segment: not empty and without a slash. *)
Fixpoint no_slash (s : string) : bool :=
  match s with
  | EmptyString => true
  | String c s' => negb (Ascii.eqb c "/") && no_slash s'
  end.

Definition is_segment (s : string) : bool :=
  negb (String.eqb s EmptyString) && no_slash s.

(** The request [GET path]. *)
Definition GET (path : string) : request := Request "GET" path.

(** The payload of [GET /echo]. *)
Definition hello_world : Py.dict := [("message", Py.VStr "Hello, World!")].

(** ** The test suite of [tests/test_main.py] *)

Module Tests.

(** How a test function ends: it returns, an [assert] of the given line
    of the file fails, an exception of the application reaches it, or it
    reads the body of a default response, which is not specified. *)
Inductive outcome : Type :=
| Passed
| AssertionFailed (line : nat)
| Errored (e : Py.exn)
| Unspecified.

(** Python's [==] on the values of a payload; [True] and [False] are
    equal to the integers 1 and 0. *)
Definition value_eqb (v w : Py.value) : bool :=
  match v, w with
  | Py.VNone, Py.VNone => true
  | Py.VBool a, Py.VBool b => Bool.eqb a b
  | Py.VInt a, Py.VInt b => Z.eqb a b
  | Py.VBool a, Py.VInt b => Z.eqb (if a then 1 else 0) b
  | Py.VInt a, Py.VBool b => Z.eqb a (if b then 1 else 0)
  | Py.VStr a, Py.VStr b => String.eqb a b
  | _, _ => false
  end.

(** Python's [==] on dicts: as many items, and every key of the one
    bound to an equal value in the other, in whatever order. *)
Definition dict_eqb (d e : Py.dict) : bool :=
  Nat.eqb (length d) (length e) &&
  forallb (fun kv => match Py.get (fst kv) e with
                     | Some w => value_eqb (snd kv) w
                     | None => false
                     end) d.

(** [client = TestClient(app)]; [client.get(path)] sends [GET path] to
    the application and hands back its response, or the exception the
    application raised. *)
Definition client_get (application : list route) (path : string)
  : Py.result response :=
  dispatch application (GET path).

(** [response.status_code] *)
Definition status_code (r : response) : Z :=
  match r with
  | Reply st _ => st
  | Default st => st
  end.

(** [response.json()] *)
Definition json (r : response) : option Py.dict :=
  match r with
  | Reply _ body => Some body
  | Default _ => None
  end.

(** [assert cond], on the given line, followed by the rest of the test. *)
Definition assert_that (cond : bool) (line : nat) (rest : outcome) : outcome :=
  if cond then rest else AssertionFailed line.

(** [assert response.json() == expected], on the given line, as the last
    statement of a test. *)
Definition assert_json (r : response) (expected : Py.dict) (line : nat) : outcome :=
  match json r with
  | Some body => assert_that (dict_eqb body expected) line Passed
  | None => Unspecified
  end.

(** [def test_echo()], lines 6 to 9. *)
Definition test_echo (application : list route) : outcome :=
  match client_get application "/echo" with
  | Py.Raise e => Errored e
  | Py.Return response =>
      assert_that (Z.eqb (status_code response) 200) 8
        (assert_json response [("message", Py.VStr "Hello, World!")] 9)
  end.

(** [def test_echo_name()], lines 11 to 14. *)
Definition test_echo_name (application : list route) : outcome :=
  match client_get application "/echo/DevOps" with
  | Py.Raise e => Errored e
  | Py.Return response =>
      assert_that (Z.eqb (status_code response) 200) 13
        (assert_json response [("message", Py.VStr "Hello, DevOps!")] 14)
  end.

(** [def test_health()], lines 16 to 19. *)
Definition test_health (application : list route) : outcome :=
  match client_get application "/health" with
  | Py.Raise e => Errored e
  | Py.Return response =>
      assert_that (Z.eqb (status_code response) 200) 18
        (assert_json response [("status", Py.VStr "healthy")] 19)
  end.

End Tests.

(** ** Names of parameters and joined segments *)

(** The names of the parameters of a path template, in its order. *)
Definition template_params (tpl : list template_segment) : list string :=
  flat_map (fun seg => match seg with
                       | Param name => [name]
                       | Lit _ => []
                       end) tpl.

(** The segments put together again, a slash between two of them. *)
Fixpoint join_slash (segs : list string) : string :=
  match segs with
  | [] => EmptyString
  | seg :: rest =>
      match rest with
      | [] => seg
      | _ :: _ => seg ++ "/" ++ join_slash rest
      end
  end.

(** ** The router of the framework

    The router above follows the words of the specification. The one
    below follows the router the application object really has:
    [FastAPI()], called as [main.py] calls it, with its default options,
    hands requests to Starlette's [Router.app]. Against the router of the
    specification it differs in three places. A path template is a
    regular expression closed by [$], which also matches before a line
    feed that ends the path. The application has four pages of its own,
    registered before the routes of [main.py]. A request that no route
    matches, but whose path with the trailing slash toggled one does, is
    redirected there. *)

Module Framework.

(** What the framework sends back: the payload of a handler of the
    application with its status; one of the framework's own pages, with
    status 200; a redirect, status 307, to a path on the same host; the
    default 405; the default 404. *)
Inductive response : Type :=
| Handled (status : Z) (body : Py.dict)
| Page (path : string)
| Redirect (location : string)
| MethodNotAllowed
| NotFound.

Definition status_code (r : response) : Z :=
  match r with
  | Handled st _ => st
  | Page _ => 200
  | Redirect _ => 307
  | MethodNotAllowed => 405
  | NotFound => 404
  end.

(** [strip_line_feed s] is [Some s'] when [s] is [s'] followed by one
    line feed. *)
Fixpoint strip_line_feed (s : string) : option string :=
  match s with
  | EmptyString => None
  | String c rest =>
      match rest with
      | EmptyString => if Ascii.eqb c "010" then Some EmptyString else None
      | String _ _ => option_map (String c) (strip_line_feed rest)
      end
  end.

(** [route.path_regex.match(path)], for a template whose segments are
    each literal text or one parameter, as those of [main.py] are. The
    expression is the template with [[^/]+] for a parameter, between [^]
    and [$]: it matches the whole path, a parameter taking all of its
    segment, or the path without the line feed that ends it. *)
Definition regex_match (template path : string) : option Py.kwargs :=
  match match_path template path with
  | Some kw => Some kw
  | None =>
      match strip_line_feed path with
      | Some path' => match_path template path'
      | None => None
      end
  end.

(** What a route of the router leads to: a page of the framework, or a
    function of the application. *)
Inductive target : Type :=
| OwnPage
| Endpoint (f : Py.kwargs -> Py.result Py.dict).

(** A route as the router holds it, with the set of its methods. *)
Record entry : Type := Entry {
  entry_methods : list string;
  entry_path : string;
  entry_target : target
}.

(** The pages [FastAPI()] registers when it is built, before any
    decorator of [main.py] runs. *)
Definition own_pages : list string :=
  ["/openapi.json"; "/docs"; "/docs/oauth2-redirect"; "/redoc"].

(** A page of the framework is a plain route for GET, to which the
    router adds HEAD. *)
Definition page_entry (path : string) : entry :=
  Entry ["GET"; "HEAD"] path OwnPage.

(** A decorated function is a route for the method of its decorator
    alone. *)
Definition route_entry (r : route) : entry :=
  Entry [route_method r] (route_path r) (Endpoint (route_endpoint r)).

(** [app.router.routes]: the pages of the framework, then the routes of
    the application in the order of their decorators. *)
Definition entries (routes : list route) : list entry :=
  map page_entry own_pages ++ map route_entry routes.

(** [scope["method"] in route.methods] *)
Definition allows (e : entry) (method : string) : bool :=
  existsb (String.eqb method) (entry_methods e).

(** The first route that matches the request in full: its expression
    matches the path and the method is one of its methods. *)
Fixpoint find_full (es : list entry) (req : request)
  : option (entry * Py.kwargs) :=
  match es with
  | [] => None
  | e :: es' =>
      match regex_match (entry_path e) (req_path req) with
      | Some kw =>
          if allows e (req_method req) then Some (e, kw) else find_full es' req
      | None => find_full es' req
      end
  end.

(** Whether the expression of some route matches the path, whatever the
    method. *)
Definition matched (es : list entry) (path : string) : bool :=
  existsb (fun e => match regex_match (entry_path e) path with
                    | Some _ => true
                    | None => false
                    end) es.

(** [path.endswith("/")] *)
Fixpoint ends_with_slash (s : string) : bool :=
  match s with
  | EmptyString => false
  | String c rest =>
      match rest with
      | EmptyString => Ascii.eqb c "/"
      | String _ _ => ends_with_slash rest
      end
  end.

(** [path.rstrip("/")]: the path without the slashes that end it. *)
Fixpoint rstrip_slash (s : string) : string :=
  match s with
  | EmptyString => EmptyString
  | String c rest =>
      match rstrip_slash rest with
      | EmptyString => if Ascii.eqb c "/" then EmptyString else String c EmptyString
      | String c' rest' => String c (String c' rest')
      end
  end.

(** The path the router tries when no route matches: without its
    trailing slashes when it ends with one, with a slash added when it
    does not. *)
Definition toggle_slash (path : string) : string :=
  if ends_with_slash path then rstrip_slash path else path ++ "/".

(** [Router.app]. The first route that matches in full handles the
    request: a page of the framework is sent, a function of the
    application is called with the parameters of the path and its
    payload sent with status 200; an exception of the function is not
    caught. Otherwise, if the expression of a route matches the path,
    the method is not one of that route's and the answer is 405.
    Otherwise, unless the path is [/], if the expression of a route
    matches the path with its trailing slash toggled, the answer is a
    redirect to that path. Otherwise it is 404. *)
Definition answer (routes : list route) (req : request) : Py.result response :=
  match find_full (entries routes) req with
  | Some (e, kw) =>
      match entry_target e with
      | OwnPage => Py.Return (Page (entry_path e))
      | Endpoint f => body <- f kw ;; Py.Return (Handled 200 body)
      end
  | None =>
      if matched (entries routes) (req_path req) then Py.Return MethodNotAllowed
      else if negb (String.eqb (req_path req) "/")
              && matched (entries routes) (toggle_slash (req_path req))
      then Py.Return (Redirect (toggle_slash (req_path req)))
      else Py.Return NotFound
  end.

(** Whether the expression of a route of the application itself matches
    the path. *)
Definition route_matches (routes : list route) (path : string) : bool :=
  matched (map route_entry routes) path.

End Framework.

(** ** Facts about paths and the router *)

Lemma split_slash_segment (s : string) :
  no_slash s = true -> split_slash s = [s].
Proof.
  induction s as [|c s IH]; simpl; [reflexivity|].
  intros H. apply andb_prop in H. destruct H as [Hc Hs].
  apply negb_true_iff in Hc. rewrite Hc, (IH Hs). reflexivity.
Qed.

Lemma is_segment_inv (s : string) :
  is_segment s = true -> String.eqb s EmptyString = false /\ no_slash s = true.
Proof.
  unfold is_segment. intros H. apply andb_prop in H. destruct H as [Hne Hs].
  apply negb_true_iff in Hne. split; assumption.
Qed.

Lemma segments_echo_name (s : string) :
  no_slash s = true -> segments ("/echo/" ++ s) = Some ["echo"; s].
Proof.
  intros Hs. cbn. rewrite (split_slash_segment s Hs). reflexivity.
Qed.

(** The parameters the two templates of the service bind. *)
Lemma match_path_echo (path : string) (kw : Py.kwargs) :
  match_path "/echo" path = Some kw -> kw = [].
Proof.
  unfold match_path. change (compile_path "/echo") with (Some [Lit "echo"]).
  destruct (segments path) as [[|seg [|seg' segs]]|];
    cbn [match_segments]; try discriminate;
    destruct (String.eqb "echo" seg); try discriminate.
  intros [= <-]. reflexivity.
Qed.

Lemma match_path_echo_name (path : string) (kw : Py.kwargs) :
  match_path "/echo/{name}" path = Some kw ->
  exists s, String.eqb s EmptyString = false /\ kw = [("name", s)].
Proof.
  unfold match_path.
  change (compile_path "/echo/{name}") with (Some [Lit "echo"; Param "name"]).
  destruct (segments path) as [[|seg [|s [|s' segs]]]|];
    cbn [match_segments]; try discriminate;
    destruct (String.eqb "echo" seg); try discriminate;
    destruct (String.eqb s EmptyString) eqn:E; try discriminate.
  cbn [option_map]. intros [= <-]. exists s. split; [assumption|reflexivity].
Qed.

Lemma find_route_In (routes : list route) (req : request) (r : route) (kw : Py.kwargs) :
  find_route routes req = Some (r, kw) -> In r routes /\ full_match req r = Some kw.
Proof.
  induction routes as [|r0 routes IH]; simpl; [discriminate|].
  destruct (full_match req r0) as [kw0|] eqn:E.
  - intros [= <- <-]. split; [left; reflexivity|assumption].
  - intros H. destruct (IH H) as [Hin Hm]. split; [right|]; assumption.
Qed.

Lemma full_match_path (req : request) (r : route) (kw : Py.kwargs) :
  full_match req r = Some kw ->
  route_method r = req_method req /\ match_path (route_path r) (req_path req) = Some kw.
Proof.
  unfold full_match. destruct (String.eqb_spec (route_method r) (req_method req)).
  - intros H. split; assumption.
  - discriminate.
Qed.



(** ** Facts about greetings *)

Lemma strip_suffix_bang (s : string) : strip_suffix "!" (s ++ "!") = Some s.
Proof.
  induction s as [|c s IH].
  - reflexivity.
  - cbn [append strip_suffix]. rewrite IH.
    replace (String.eqb (String c (s ++ "!")) "!") with false; [reflexivity|].
    symmetry. apply String.eqb_neq. intros [= _ H]. destruct s; discriminate.
Qed.

Lemma recover_greeting (s : string) : recover_name ("Hello, " ++ s ++ "!") = Some s.
Proof. unfold recover_name. cbn [append strip_prefix Ascii.eqb Bool.eqb]. apply strip_suffix_bang. Qed.

(** ** The properties of the service *)

(** C1: for every non-empty path segment [s], [GET /echo/{s}] is answered
    with status 200 and the payload whose [message] is ["Hello, "], then
    [s] itself, unchanged and whole, then ["!"]. *)
Theorem echo_name_served (s : string) :
  is_segment s = true ->
  dispatch app (GET ("/echo/" ++ s))
  = Py.Return (Reply 200 [("message", Py.VStr ("Hello, " ++ s ++ "!"))]).
Proof.
  intros H. apply is_segment_inv in H. destruct H as [Hne Hs].
  unfold dispatch, app, find_route, full_match, match_path, GET.
  cbn [route_method route_path req_method req_path].
  rewrite (segments_echo_name s Hs).
  change (compile_path "/echo") with (Some [Lit "echo"]).
  change (compile_path "/echo/{name}") with (Some [Lit "echo"; Param "name"]).
  change (String.eqb "GET" "GET") with true. cbv iota.
  cbn [match_segments].
  change (String.eqb "echo" "echo") with true. cbv iota.
  rewrite Hne. reflexivity.
Qed.

Lemma echo_name_served_witness :
  is_segment "DevOps" = true /\
  dispatch app (GET "/echo/DevOps")
  = Py.Return (Reply 200 [("message", Py.VStr "Hello, DevOps!")]).
Proof.
  split; [reflexivity | exact (echo_name_served "DevOps" eq_refl)].
Defined.

(** C2: [GET /echo] takes no input and is answered with status 200 and
    the payload [{"message": "Hello, World!"}]; the handler returns this
    payload at every call and raises nothing. *)
Theorem echo_served :
  (forall u : unit, echo u = hello_world) /\
  call_echo [] = Py.Return hello_world /\
  dispatch app (GET "/echo") = Py.Return (Reply 200 hello_world).
Proof.
  split; [intros []; reflexivity | split; reflexivity].
Qed.

(** C3, as the code has it: no route of the service has the path
    [/health], and [GET /health] gets the default 404 instead of status
    200 with [{"status": "healthy"}]. *)
Theorem health_not_served :
  (forall r, In r app -> route_path r <> "/health") /\
  find_route app (GET "/health") = None /\
  dispatch app (GET "/health") = Py.Return (Default 404).
Proof.
  split; [|split; reflexivity].
  intros r [<-|[<-|[]]]; discriminate.
Qed.


(** Every reply of the service carries the payload of a handler of one
    of its routes. *)
Lemma reply_from_handler (req : request) (st : Z) (body : Py.dict) :
  dispatch app req = Py.Return (Reply st body) ->
  exists r kw, In r app /\ route_endpoint r kw = Py.Return body.
Proof.
  unfold dispatch. destruct (find_route app req) as [[r kw]|] eqn:E; [|discriminate].
  apply find_route_In in E. destruct E as [Hin _].
  destruct (route_endpoint r kw) as [body'|e] eqn:Hb; cbn [Py.bind]; [|discriminate].
  intros [= _ <-]. exists r, kw. split; assumption.
Qed.

(** C7: the payload a handler of the service returns, whatever it is
    called with, has the single field [message], and the value of the
    field is a string. *)
Theorem payload_single_message (r : route) (kw : Py.kwargs) (body : Py.dict) :
  In r app ->
  route_endpoint r kw = Py.Return body ->
  exists s, body = [("message", Py.VStr s)] /\ message_of body = Some s.
Proof.
  intros [<-|[<-|[]]]; cbn [route_endpoint].
  - destruct kw; cbn [call_echo]; [|discriminate].
    intros [= <-]. eexists. split; reflexivity.
  - destruct kw as [|[k v] [|]]; cbn [call_echo_name]; try discriminate.
    destruct (String.eqb k "name"); [|discriminate].
    intros [= <-]. eexists. split; reflexivity.
Qed.

Lemma payload_single_message_witness :
  exists s, echo_name "DevOps" = [("message", Py.VStr s)]
            /\ message_of (echo_name "DevOps") = Some s.
Proof.
  exact (payload_single_message
           (Route "GET" "/echo/{name}" call_echo_name) [("name", "DevOps")]
           (echo_name "DevOps") (or_intror (or_introl eq_refl)) eq_refl).
Defined.

(** C8: the two handlers agree at the name [World]: [echo()] and
    [echo_name("World")] return the same payload, and [GET /echo] and
    [GET /echo/World] get the same response. *)
Theorem echo_is_echo_name_World :
  echo tt = echo_name "World" /\
  dispatch app (GET "/echo") = dispatch app (GET "/echo/World").
Proof.
  split; reflexivity.
Qed.

(** C9: [echo_name] returns a payload for every string and raises
    nothing, and no request makes the service raise: the error branches
    of the calls are not reached. *)
Theorem echo_name_total :
  (forall name : string,
     call_echo_name [("name", name)]
     = Py.Return [("message", Py.VStr ("Hello, " ++ name ++ "!"))]) /\
  (forall req : request, exists resp, dispatch app req = Py.Return resp).
Proof.
  split; [reflexivity|].
  intros req. unfold dispatch.
  destruct (find_route app req) as [[r kw]|] eqn:E; [|eexists; reflexivity].
  apply find_route_In in E. destruct E as [Hin Hm].
  apply full_match_path in Hm. destruct Hm as [_ Hm].
  destruct Hin as [<-|[<-|[]]]; cbn [route_endpoint route_path] in *.
  - apply match_path_echo in Hm. subst kw. eexists. reflexivity.
  - apply match_path_echo_name in Hm. destruct Hm as [s [_ ->]].
    eexists. reflexivity.
Qed.

(** C10: [echo_name] is injective, and the name is read back from the
    message by removing the prefix ["Hello, "] and the suffix ["!"]. *)
Theorem echo_name_injective (s1 s2 : string) :
  (s1 <> s2 -> message_of (echo_name s1) <> message_of (echo_name s2)) /\
  (s1 <> s2 -> echo_name s1 <> echo_name s2) /\
  message_of (echo_name s1) = Some ("Hello, " ++ s1 ++ "!")%string /\
  recover_name ("Hello, " ++ s1 ++ "!") = Some s1.
Proof.
  assert (Hinj : message_of (echo_name s1) = message_of (echo_name s2) -> s1 = s2).
  { unfold message_of, echo_name. cbn [Py.get]. change (String.eqb "message" "message") with true.
    cbv iota. intros [= H].
    apply (f_equal (fun t => recover_name ("Hello, " ++ t))) in H.
    rewrite !recover_greeting in H. injection H as H. exact H. }
  split; [|split; [|split]].
  - intros Hne H. apply Hne, Hinj, H.
  - intros Hne H. apply Hne, Hinj. rewrite H. reflexivity.
  - reflexivity.
  - apply recover_greeting.
Qed.

Lemma echo_name_injective_witness :
  "Ada" <> "Bob" /\
  message_of (echo_name "Ada") <> message_of (echo_name "Bob") /\
  recover_name "Hello, Ada!" = Some "Ada".
Proof.
  split; [discriminate|]. split.
  - apply (proj1 (echo_name_injective "Ada" "Bob")). discriminate.
  - exact (proj2 (proj2 (proj2 (echo_name_injective "Ada" "Bob")))).
Defined.

(** ** Paths and their segments, the other way round *)

Lemma split_slash_not_nil (s : string) : split_slash s <> [].
Proof.
  destruct s as [|c s]; cbn [split_slash]; [discriminate|].
  destruct (Ascii.eqb c "/"); [discriminate|].
  destruct (split_slash s); discriminate.
Qed.

Lemma join_split_slash (s : string) : join_slash (split_slash s) = s.
Proof.
  induction s as [|c s IH]; [reflexivity|].
  cbn [split_slash]. pose proof (split_slash_not_nil s) as Hnil.
  destruct (Ascii.eqb_spec c "/") as [->|_].
  - destruct (split_slash s) as [|seg segs]; [contradiction|].
    cbn [join_slash] in *. rewrite IH. reflexivity.
  - destruct (split_slash s) as [|seg segs]; [contradiction|].
    cbn [join_slash] in *. destruct segs; rewrite <- IH; reflexivity.
Qed.

Lemma split_slash_no_slash (s : string) :
  Forall (fun seg => no_slash seg = true) (split_slash s).
Proof.
  induction s as [|c s IH]; cbn [split_slash].
  - constructor; [reflexivity|constructor].
  - destruct (Ascii.eqb c "/") eqn:Ec.
    + constructor; [reflexivity|assumption].
    + destruct (split_slash s) as [|seg segs]; [constructor; [|constructor]|].
      * cbn. rewrite Ec. reflexivity.
      * inversion IH as [|? ? Hseg Hsegs]; subst. constructor; [|assumption].
        cbn. rewrite Ec, Hseg. reflexivity.
Qed.

Lemma segments_join (path : string) (segs : list string) :
  segments path = Some segs ->
  path = String "/" (join_slash segs) /\ Forall (fun seg => no_slash seg = true) segs.
Proof.
  destruct path as [|c rest]; cbn [segments]; [discriminate|].
  destruct (Ascii.eqb_spec c "/") as [->|_]; [|discriminate].
  intros [= <-]. split; [rewrite join_split_slash; reflexivity|apply split_slash_no_slash].
Qed.

(** The paths the two templates of the service match. *)
Lemma match_path_echo_only (path : string) (kw : Py.kwargs) :
  match_path "/echo" path = Some kw -> path = "/echo".
Proof.
  unfold match_path. change (compile_path "/echo") with (Some [Lit "echo"]).
  destruct (segments path) as [[|seg [|seg' segs]]|] eqn:E;
    cbn [match_segments]; try discriminate;
    destruct (String.eqb_spec "echo" seg) as [<-|]; try discriminate.
  intros _. apply segments_join in E. destruct E as [-> _]. reflexivity.
Qed.

Lemma match_path_echo_name_only (path : string) (kw : Py.kwargs) :
  match_path "/echo/{name}" path = Some kw ->
  exists s, is_segment s = true /\ path = ("/echo/" ++ s)%string /\ kw = [("name", s)].
Proof.
  unfold match_path.
  change (compile_path "/echo/{name}") with (Some [Lit "echo"; Param "name"]).
  destruct (segments path) as [[|seg [|s [|s' segs]]]|] eqn:E;
    cbn [match_segments]; try discriminate;
    destruct (String.eqb_spec "echo" seg) as [<-|]; try discriminate;
    destruct (String.eqb s EmptyString) eqn:Es; try discriminate.
  cbn [option_map]. intros [= <-]. apply segments_join in E. destruct E as [-> Hall].
  exists s. split; [|split; reflexivity].
  inversion Hall as [|? ? _ Hrest]; subst. inversion Hrest as [|? ? Hs _]; subst.
  unfold is_segment. rewrite Es, Hs. reflexivity.
Qed.

Lemma echo_templates_disjoint (path : string) (kw kw' : Py.kwargs) :
  match_path "/echo" path = Some kw ->
  match_path "/echo/{name}" path = Some kw' -> False.
Proof.
  intros H H'. apply match_path_echo_only in H. subst path.
  vm_compute in H'. discriminate.
Qed.

(** ** Further properties of the handlers and the route table *)

(** X1: [World] is the only name at which [echo_name] returns the payload
    of [echo]. *)
Theorem echo_name_is_echo_only_at_World (name : string) :
  echo_name name = echo tt <-> name = "World".
Proof.
  split; [|intros ->; reflexivity].
  intros H. apply (f_equal message_of) in H.
  change (Some ("Hello, " ++ name ++ "!")%string = Some "Hello, World!") in H.
  assert (E : Some name = Some "World"); [|congruence].
  rewrite <- (recover_greeting name).
  change (recover_name ("Hello, " ++ name ++ "!") = recover_name "Hello, World!").
  f_equal. congruence.
Qed.

Lemma echo_name_is_echo_only_at_World_witness :
  echo_name "World" = echo tt.
Proof.
  exact (proj2 (echo_name_is_echo_only_at_World "World") eq_refl).
Defined.

(** X2: each handler of the route table takes exactly the parameters of
    the path template it is registered under: a call with keyword
    arguments returns a payload when the keywords are the parameter
    names of the template, and raises otherwise. *)
Theorem handler_takes_template_params (r : route) (kw : Py.kwargs) :
  In r app ->
  (exists body, route_endpoint r kw = Py.Return body) <->
  option_map template_params (compile_path (route_path r)) = Some (map fst kw).
Proof.
  intros [<-|[<-|[]]]; cbn [route_endpoint route_path].
  - change (compile_path "/echo") with (Some [Lit "echo"]).
    destruct kw as [|[k v] kw]; cbn.
    + split; [reflexivity|]. intros _. eexists. reflexivity.
    + split; [intros [body H]|intros H]; discriminate.
  - change (compile_path "/echo/{name}") with (Some [Lit "echo"; Param "name"]).
    destruct kw as [|[k v] [|[k' v'] kw]];
      cbn [call_echo_name option_map template_params flat_map map fst app].
    + split; [intros [body H]|intros H]; discriminate.
    + destruct (String.eqb_spec k "name") as [->|Hk].
      * split; [reflexivity|]. intros _. eexists. reflexivity.
      * split; [intros [body H]; discriminate|].
        intros [= H]. exfalso. apply Hk. symmetry. exact H.
    + split; [intros [body H]|intros H]; discriminate.
Qed.

Lemma handler_takes_template_params_witness :
  (exists body, call_echo_name [("name", "DevOps")] = Py.Return body) <->
  Some ["name"] = Some ["name"].
Proof.
  exact (handler_takes_template_params
           (Route "GET" "/echo/{name}" call_echo_name) [("name", "DevOps")]
           (or_intror (or_introl eq_refl))).
Defined.

(** X4: no path is matched by both templates of the service, so the
    order of the two decorated functions in [main.py] does not matter:
    with the two routes exchanged every request gets the same answer. *)
Theorem route_order_irrelevant (req : request) :
  dispatch (rev app) req = dispatch app req.
Proof.
  unfold dispatch. cbn [rev app List.app find_route path_known existsb route_path].
  destruct (full_match req (Route "GET" "/echo" call_echo)) as [kw|] eqn:E1;
    destruct (full_match req (Route "GET" "/echo/{name}" call_echo_name)) as [kw'|] eqn:E2.
  - exfalso. apply full_match_path in E1, E2. destruct E1 as [_ E1], E2 as [_ E2].
    exact (echo_templates_disjoint _ _ _ E1 E2).
  - reflexivity.
  - reflexivity.
  - rewrite orb_false_r.
    destruct (match_path "/echo/{name}" (req_path req));
      destruct (match_path "/echo" (req_path req)); reflexivity.
Qed.

(** ** The outcome of the test suite *)

(** X6: [test_echo] and [test_echo_name] pass on the application of
    [main.py], and go on passing whatever routes are registered after
    its two. *)
Theorem echo_tests_pass (extra : list route) :
  Tests.test_echo (app ++ extra) = Tests.Passed /\
  Tests.test_echo_name (app ++ extra) = Tests.Passed.
Proof.
  split; reflexivity.
Qed.

(** X8: once a GET route for [/health] is registered after the two of
    [main.py], with a handler that returns [{"status": "healthy"}] when
    called without arguments, the three tests pass. *)
Theorem suite_passes_with_health (h : Py.kwargs -> Py.result Py.dict) :
  h [] = Py.Return [("status", Py.VStr "healthy")] ->
  Tests.test_echo (app ++ [Route "GET" "/health" h]) = Tests.Passed /\
  Tests.test_echo_name (app ++ [Route "GET" "/health" h]) = Tests.Passed /\
  Tests.test_health (app ++ [Route "GET" "/health" h]) = Tests.Passed.
Proof.
  intros H. split; [reflexivity|]. split; [reflexivity|].
  unfold Tests.test_health, Tests.client_get, dispatch.
  change (find_route (app ++ [Route "GET" "/health" h]) (GET "/health"))
    with (Some (Route "GET" "/health" h, @nil (string * string))).
  cbn [route_endpoint]. rewrite H. reflexivity.
Qed.

(** A handler for [/health] as the test expects it. *)
Lemma suite_passes_with_health_witness :
  Tests.test_echo
    (app ++ [Route "GET" "/health"
               (fun _ => Py.Return [("status", Py.VStr "healthy")])]) = Tests.Passed /\
  Tests.test_echo_name
    (app ++ [Route "GET" "/health"
               (fun _ => Py.Return [("status", Py.VStr "healthy")])]) = Tests.Passed /\
  Tests.test_health
    (app ++ [Route "GET" "/health"
               (fun _ => Py.Return [("status", Py.VStr "healthy")])]) = Tests.Passed.
Proof.
  exact (suite_passes_with_health
           (fun _ => Py.Return [("status", Py.VStr "healthy")]) eq_refl).
Defined.

(** ** Facts about the router of the framework *)

Import Framework.

(** The line feed. *)
Lemma strip_line_feed_inv (s s' : string) :
  strip_line_feed s = Some s' -> s = (s' ++ String "010" EmptyString)%string.
Proof.
  revert s'. induction s as [|c s IH]; intros s'; [discriminate|].
  cbn [strip_line_feed]. destruct s as [|c' s].
  - destruct (Ascii.eqb_spec c "010") as [->|]; [|discriminate].
    intros [= <-]. reflexivity.
  - destruct (strip_line_feed (String c' s)) as [t|]; [|discriminate].
    cbn [option_map]. intros [= <-]. cbn [append]. rewrite (IH t eq_refl). reflexivity.
Qed.

Lemma no_slash_line_feed (s : string) :
  no_slash s = true -> no_slash (s ++ String "010" EmptyString) = true.
Proof.
  induction s as [|c s IH]; [reflexivity|].
  cbn [no_slash append]. intros H. apply andb_prop in H. destruct H as [Hc Hs].
  rewrite Hc, (IH Hs). reflexivity.
Qed.

Lemma is_segment_line_feed (s : string) :
  is_segment s = true -> is_segment (s ++ String "010" EmptyString) = true.
Proof.
  intros H. apply is_segment_inv in H. destruct H as [_ Hs].
  unfold is_segment. rewrite (no_slash_line_feed s Hs).
  destruct s; reflexivity.
Qed.

(** An expression matches the path, or the path without its last line
    feed. *)
Lemma regex_match_inv (template path : string) (kw : Py.kwargs) :
  regex_match template path = Some kw ->
  match_path template path = Some kw \/
  (match_path template path = None /\
   exists path', path = (path' ++ String "010" EmptyString)%string
                 /\ match_path template path' = Some kw).
Proof.
  unfold regex_match. destruct (match_path template path) as [kw0|].
  - intros [= <-]. left. reflexivity.
  - destruct (strip_line_feed path) as [path'|] eqn:E; [|discriminate].
    intros H. right. split; [reflexivity|]. exists path'.
    split; [apply strip_line_feed_inv; exact E | exact H].
Qed.

Lemma match_path_echo_name_segment (s : string) :
  is_segment s = true ->
  match_path "/echo/{name}" ("/echo/" ++ s) = Some [("name", s)].
Proof.
  intros H. apply is_segment_inv in H. destruct H as [Hne Hs].
  unfold match_path. rewrite (segments_echo_name s Hs).
  change (compile_path "/echo/{name}") with (Some [Lit "echo"; Param "name"]).
  cbn [match_segments]. change (String.eqb "echo" "echo") with true. cbv iota.
  rewrite Hne. reflexivity.
Qed.

(** What the expressions of the two routes of [main.py] match. *)
Lemma regex_match_echo (path : string) (kw : Py.kwargs) :
  regex_match "/echo" path = Some kw ->
  kw = [] /\ (path = "/echo" \/ path = String.append "/echo" (String "010" EmptyString)).
Proof.
  intros H. apply regex_match_inv in H. destruct H as [H|[_ [path' [-> H]]]].
  - split; [exact (match_path_echo _ _ H)|]. left. exact (match_path_echo_only _ _ H).
  - split; [exact (match_path_echo _ _ H)|]. right.
    rewrite (match_path_echo_only _ _ H). reflexivity.
Qed.

Lemma regex_match_echo_name (path : string) (kw : Py.kwargs) :
  regex_match "/echo/{name}" path = Some kw ->
  exists s, is_segment s = true /\ path = ("/echo/" ++ s)%string /\ kw = [("name", s)].
Proof.
  intros H. apply regex_match_inv in H. destruct H as [H|[Hnone [path' [-> H]]]].
  - exact (match_path_echo_name_only _ _ H).
  - exfalso. apply match_path_echo_name_only in H. destruct H as [s [Hs [-> _]]].
    apply is_segment_line_feed in Hs. apply match_path_echo_name_segment in Hs.
    cbn [append] in Hnone, Hs. rewrite Hs in Hnone. discriminate.
Qed.

(** A template of literal segments matches one path. *)
Lemma match_segments_literal (lits segs : list string) (kw : Py.kwargs) :
  match_segments (map Lit lits) segs = Some kw -> segs = lits /\ kw = [].
Proof.
  revert segs. induction lits as [|l lits IH]; intros [|seg segs];
    cbn [map match_segments]; try discriminate.
  - intros [= <-]. split; reflexivity.
  - destruct (String.eqb_spec l seg) as [<-|]; [|discriminate].
    intros H. destruct (IH _ H) as [-> ->]. split; reflexivity.
Qed.

Lemma match_path_literal (template path : string) (lits : list string) (kw : Py.kwargs) :
  compile_path template = Some (map Lit lits) ->
  match_path template path = Some kw ->
  path = String "/" (join_slash lits) /\ kw = [].
Proof.
  unfold match_path. intros ->. destruct (segments path) as [segs|] eqn:E; [|discriminate].
  intros H. apply match_segments_literal in H. destruct H as [-> ->].
  apply segments_join in E. destruct E as [-> _]. split; reflexivity.
Qed.

Lemma own_page_match (page path : string) (kw : Py.kwargs) :
  In page own_pages ->
  regex_match page path = Some kw ->
  path = page \/ path = (page ++ String "010" EmptyString)%string.
Proof.
  intros Hin H.
  assert (Hlit : forall q kw', match_path page q = Some kw' -> q = page).
  { intros q kw' Hq.
    destruct Hin as [<-|[<-|[<-|[<-|[]]]]].
    - exact (proj1 (match_path_literal "/openapi.json" q ["openapi.json"] kw' eq_refl Hq)).
    - exact (proj1 (match_path_literal "/docs" q ["docs"] kw' eq_refl Hq)).
    - exact (proj1 (match_path_literal "/docs/oauth2-redirect" q ["docs"; "oauth2-redirect"] kw' eq_refl Hq)).
    - exact (proj1 (match_path_literal "/redoc" q ["redoc"] kw' eq_refl Hq)). }
  apply regex_match_inv in H. destruct H as [H|[_ [path' [-> H]]]].
  - left. exact (Hlit _ _ H).
  - right. rewrite (Hlit _ _ H). reflexivity.
Qed.

(** The search for a full match. *)
Lemma find_full_In (es : list entry) (req : request) (e : entry) (kw : Py.kwargs) :
  find_full es req = Some (e, kw) ->
  In e es /\ regex_match (entry_path e) (req_path req) = Some kw
  /\ allows e (req_method req) = true.
Proof.
  induction es as [|e0 es IH]; cbn [find_full]; [discriminate|].
  destruct (regex_match (entry_path e0) (req_path req)) as [kw0|] eqn:E.
  - destruct (allows e0 (req_method req)) eqn:A.
    + intros [= <- <-]. split; [left; reflexivity|]. split; assumption.
    + intros H. destruct (IH H) as [Hin Hrest]. split; [right; exact Hin|exact Hrest].
  - intros H. destruct (IH H) as [Hin Hrest]. split; [right; exact Hin|exact Hrest].
Qed.

Lemma find_full_app (es es' : list entry) (req : request) :
  find_full (es ++ es') req
  = match find_full es req with
    | Some found => Some found
    | None => find_full es' req
    end.
Proof.
  induction es as [|e es IH]; cbn [find_full List.app]; [reflexivity|].
  destruct (regex_match (entry_path e) (req_path req));
    [destruct (allows e (req_method req))|]; try reflexivity; exact IH.
Qed.

Lemma find_full_unmatched (es : list entry) (req : request) :
  matched es (req_path req) = false -> find_full es req = None.
Proof.
  unfold matched. induction es as [|e es IH]; cbn [find_full existsb]; [reflexivity|].
  intros H. apply orb_false_elim in H. destruct H as [He Hes].
  destruct (regex_match (entry_path e) (req_path req)); [discriminate|].
  exact (IH Hes).
Qed.

Lemma find_full_none_allowed (es : list entry) (req : request) :
  (forall e, In e es -> allows e (req_method req) = true) ->
  find_full es req = None -> matched es (req_path req) = false.
Proof.
  unfold matched. induction es as [|e es IH]; cbn [find_full existsb]; [reflexivity|].
  intros Hall. rewrite (Hall e (or_introl eq_refl)).
  destruct (regex_match (entry_path e) (req_path req)); [discriminate|].
  intros H. cbn [orb]. apply IH; [|exact H].
  intros e' He'. apply Hall. right. exact He'.
Qed.

Lemma matched_exists (es : list entry) (path : string) :
  matched es path = true <->
  exists e kw, In e es /\ regex_match (entry_path e) path = Some kw.
Proof.
  unfold matched. rewrite existsb_exists. split.
  - intros [e [Hin H]]. destruct (regex_match (entry_path e) path) as [kw|] eqn:E;
      [|discriminate]. exists e, kw. split; assumption.
  - intros [e [kw [Hin H]]]. exists e. split; [exact Hin|]. rewrite H. reflexivity.
Qed.

Lemma find_full_entries (routes : list route) (req : request) (e : entry) (kw : Py.kwargs) :
  find_full (entries routes) req = Some (e, kw) ->
  (exists page, In page own_pages /\ e = page_entry page
                /\ (req_method req = "GET" \/ req_method req = "HEAD")
                /\ regex_match page (req_path req) = Some kw) \/
  (exists r, In r routes /\ e = route_entry r
             /\ route_method r = req_method req
             /\ regex_match (route_path r) (req_path req) = Some kw).
Proof.
  intros H. apply find_full_In in H. destruct H as [Hin [Hm Ha]].
  unfold entries in Hin. apply in_app_or in Hin. destruct Hin as [Hin|Hin];
    apply in_map_iff in Hin; destruct Hin as [x [<- Hx]].
  - left. exists x. split; [exact Hx|]. split; [reflexivity|]. split; [|exact Hm].
    unfold allows in Ha. cbn [page_entry entry_methods existsb] in Ha.
    rewrite orb_false_r in Ha. apply orb_prop in Ha.
    destruct Ha as [Ha|Ha]; apply String.eqb_eq in Ha; [left|right]; exact Ha.
  - right. exists x. split; [exact Hx|]. split; [reflexivity|]. split; [|exact Hm].
    unfold allows in Ha. cbn [route_entry entry_methods existsb] in Ha.
    rewrite orb_false_r in Ha. apply String.eqb_eq in Ha. symmetry. exact Ha.
Qed.

(** A route of [main.py] that matches a request in full is a GET route
    whose expression matches the path. *)
Lemma app_route_full (req : request) (r : route) (kw : Py.kwargs) :
  In r app ->
  route_method r = req_method req ->
  regex_match (route_path r) (req_path req) = Some kw ->
  req_method req = "GET" /\ route_matches app (req_path req) = true.
Proof.
  intros Hin Hmeth Hm. split.
  - rewrite <- Hmeth. destruct Hin as [<-|[<-|[]]]; reflexivity.
  - unfold route_matches. apply matched_exists. exists (route_entry r), kw.
    split; [apply in_map; exact Hin | exact Hm].
Qed.

(** ** The requests no handler serves *)

(** C4, as the code has it, at [POST /echo/]: the method is not GET and
    no route of [main.py] matches the path, and the answer is neither
    404 nor 405 but a redirect to [/echo] with status 307. *)
Lemma unrouted_request_not_404_405 :
  ~ (forall req : request,
       req_method req <> "GET" \/ route_matches app (req_path req) = false ->
       exists resp, answer app req = Py.Return resp
                    /\ (status_code resp = 404%Z \/ status_code resp = 405%Z)).
Proof.
  intros H.
  destruct (H (Request "POST" "/echo/") (or_intror eq_refl)) as [resp [E S]].
  change (answer app (Request "POST" "/echo/")) with (Py.Return (Redirect "/echo")) in E.
  injection E as <-. destruct S as [S|S]; discriminate S.
Qed.

(** C4, amended: a request whose method is not GET, or whose path no
    route of [main.py] matches, is served by no handler of [main.py].
    The framework answers it with one of its own pages, when the method
    is GET or HEAD and the path is the page's; with the default 405,
    when a route matches the path under another method; with a redirect,
    status 307, when no route matches the path and one matches the path
    with its trailing slash toggled; and with the default 404 otherwise. *)
Theorem unrouted_request_answer (req : request) :
  req_method req <> "GET" \/ route_matches app (req_path req) = false ->
  (forall st body, answer app req <> Py.Return (Handled st body)) /\
  ((exists page, In page own_pages
                 /\ (req_method req = "GET" \/ req_method req = "HEAD")
                 /\ (req_path req = page
                     \/ req_path req = (page ++ String "010" EmptyString)%string)
                 /\ answer app req = Py.Return (Page page)) \/
   (matched (entries app) (req_path req) = true
    /\ answer app req = Py.Return MethodNotAllowed) \/
   (matched (entries app) (req_path req) = false
    /\ req_path req <> "/"
    /\ matched (entries app) (toggle_slash (req_path req)) = true
    /\ answer app req = Py.Return (Redirect (toggle_slash (req_path req)))) \/
   (matched (entries app) (req_path req) = false
    /\ (req_path req = "/"
        \/ matched (entries app) (toggle_slash (req_path req)) = false)
    /\ answer app req = Py.Return NotFound)).
Proof.
  intros H.
  assert (Hcases :
    (exists page, In page own_pages
                  /\ (req_method req = "GET" \/ req_method req = "HEAD")
                  /\ (req_path req = page
                      \/ req_path req = (page ++ String "010" EmptyString)%string)
                  /\ answer app req = Py.Return (Page page)) \/
    (matched (entries app) (req_path req) = true
     /\ answer app req = Py.Return MethodNotAllowed) \/
    (matched (entries app) (req_path req) = false
     /\ req_path req <> "/"
     /\ matched (entries app) (toggle_slash (req_path req)) = true
     /\ answer app req = Py.Return (Redirect (toggle_slash (req_path req)))) \/
    (matched (entries app) (req_path req) = false
     /\ (req_path req = "/"
         \/ matched (entries app) (toggle_slash (req_path req)) = false)
     /\ answer app req = Py.Return NotFound)).
  { unfold answer. destruct (find_full (entries app) req) as [[e kw]|] eqn:E.
    - apply find_full_entries in E.
      destruct E as [[page [Hin [-> [Hmeth Hm]]]]|[r [Hin [_ [Hmeth Hm]]]]].
      + left. exists page. split; [exact Hin|]. split; [exact Hmeth|].
        split; [exact (own_page_match _ _ _ Hin Hm)|reflexivity].
      + exfalso. destruct (app_route_full req r kw Hin Hmeth Hm) as [HG HM].
        destruct H as [H|H]; [exact (H HG) | rewrite H in HM; discriminate].
    - right. destruct (matched (entries app) (req_path req)) eqn:M.
      + left. split; reflexivity.
      + right. destruct (String.eqb_spec (req_path req) "/") as [Hroot|Hroot]; cbn [negb andb].
        * right. split; [reflexivity|]. split; [left; exact Hroot|reflexivity].
        * destruct (matched (entries app) (toggle_slash (req_path req))) eqn:T.
          -- left. split; [reflexivity|]. split; [exact Hroot|]. split; reflexivity.
          -- right. split; [reflexivity|]. split; [right; reflexivity|reflexivity]. }
  split; [|exact Hcases].
  intros st body Hh.
  destruct Hcases as [[page [_ [_ [_ E]]]]|[[_ E]|[[_ [_ [_ E]]]|[_ [_ E]]]]];
    rewrite E in Hh; discriminate.
Qed.

Lemma unrouted_request_answer_witness :
  route_matches app "/unknown" = false /\
  answer app (GET "/unknown") = Py.Return NotFound /\
  status_code NotFound = 404%Z /\
  (forall st body, answer app (GET "/unknown") <> Py.Return (Handled st body)).
Proof.
  split; [reflexivity|]. split; [reflexivity|]. split; [reflexivity|].
  exact (proj1 (unrouted_request_answer (GET "/unknown") (or_intror eq_refl))).
Defined.

(** C5, as the code has it: [GET /echo/] is not answered with 404. *)
Lemma echo_empty_segment_not_404 :
  ~ (exists resp, answer app (GET "/echo/") = Py.Return resp
                  /\ status_code resp = 404%Z).
Proof.
  intros [resp [E S]].
  change (answer app (GET "/echo/")) with (Py.Return (Redirect "/echo")) in E.
  injection E as <-. discriminate S.
Qed.

(** C5, amended: [GET /echo/], whose last segment is empty, is served by
    no handler, as the parameter of [/echo/{name}] binds no empty
    segment; since the path without its trailing slash is that of the
    route [/echo], the framework answers with a redirect to [/echo],
    status 307, where the request is served with status 200. *)
Theorem echo_empty_segment_redirected :
  segments "/echo/" = Some ["echo"; ""] /\
  regex_match "/echo/{name}" "/echo/" = None /\
  find_full (entries app) (GET "/echo/") = None /\
  matched (entries app) "/echo/" = false /\
  answer app (GET "/echo/") = Py.Return (Redirect "/echo") /\
  status_code (Redirect "/echo") = 307%Z /\
  answer app (GET "/echo") = Py.Return (Handled 200 hello_world).
Proof.
  repeat split; reflexivity.
Qed.

(** ** The two routers side by side *)

(** The requests the router of the specification hands to a handler. *)
Lemma dispatch_reply_inv (req : request) (st : Z) (body : Py.dict) :
  dispatch app req = Py.Return (Reply st body) ->
  st = 200%Z /\ req_method req = "GET" /\
  ((req_path req = "/echo" /\ body = hello_world) \/
   exists s, is_segment s = true /\ req_path req = ("/echo/" ++ s)%string
             /\ body = echo_name s).
Proof.
  unfold dispatch. destruct (find_route app req) as [[r kw]|] eqn:E; [|discriminate].
  apply find_route_In in E. destruct E as [Hin Hm].
  apply full_match_path in Hm. destruct Hm as [Hmeth Hm].
  destruct Hin as [<-|[<-|[]]]; cbn [route_endpoint route_path route_method] in *.
  - pose proof (match_path_echo _ _ Hm) as ->. apply match_path_echo_only in Hm.
    cbn. intros [= <- <-]. split; [reflexivity|]. split; [symmetry; exact Hmeth|].
    left. split; [exact Hm|reflexivity].
  - apply match_path_echo_name_only in Hm. destruct Hm as [s [Hs [Hp ->]]].
    cbn. intros [= <- <-]. split; [reflexivity|]. split; [symmetry; exact Hmeth|].
    right. exists s. split; [exact Hs|]. split; [exact Hp|reflexivity].
Qed.

(** No page of the framework lies under [/echo/]. *)
Lemma own_pages_not_echo_name (s : string) (method : string) :
  find_full (map page_entry own_pages) (Request method ("/echo/" ++ s)) = None.
Proof.
  apply find_full_unmatched. cbn [req_path].
  destruct (matched (map page_entry own_pages) ("/echo/" ++ s)) eqn:M; [|reflexivity].
  exfalso. apply matched_exists in M. destruct M as [e [kw [Hin Hm]]].
  apply in_map_iff in Hin. destruct Hin as [page [<- Hpage]].
  cbn [page_entry entry_path] in Hm.
  pose proof (own_page_match _ _ _ Hpage Hm) as Hp.
  destruct Hpage as [<-|[<-|[<-|[<-|[]]]]]; destruct Hp as [Hp|Hp];
    cbn [append] in Hp; discriminate Hp.
Qed.

(** X3: a handler of [main.py] answers only a GET request for [/echo],
    for [/echo] followed by one line feed, or for [/echo/s] with [s] a
    non-empty segment. Its answer has status 200, and the payload is the
    greeting of the world for the first two paths and the greeting of
    [s] for the third. *)
Theorem handled_only_for_echo_paths (req : request) (st : Z) (body : Py.dict) :
  answer app req = Py.Return (Handled st body) ->
  st = 200%Z /\ req_method req = "GET" /\
  (((req_path req = "/echo"
     \/ req_path req = String.append "/echo" (String "010" EmptyString))
    /\ body = hello_world) \/
   exists s, is_segment s = true /\ req_path req = ("/echo/" ++ s)%string
             /\ body = echo_name s).
Proof.
  unfold answer. destruct (find_full (entries app) req) as [[e kw]|] eqn:E.
  - apply find_full_entries in E.
    destruct E as [[page [_ [-> _]]]|[r [Hin [-> [Hmeth Hm]]]]];
      cbn [entry_target page_entry route_entry]; [discriminate|].
    destruct Hin as [<-|[<-|[]]]; cbn [route_endpoint route_path route_method] in *.
    + apply regex_match_echo in Hm. destruct Hm as [-> Hp].
      cbn. intros [= <- <-]. split; [reflexivity|]. split; [symmetry; exact Hmeth|].
      left. split; [exact Hp|reflexivity].
    + apply regex_match_echo_name in Hm. destruct Hm as [s [Hs [Hp ->]]].
      cbn. intros [= <- <-]. split; [reflexivity|]. split; [symmetry; exact Hmeth|].
      right. exists s. split; [exact Hs|]. split; [exact Hp|reflexivity].
  - destruct (matched (entries app) (req_path req)); [discriminate|].
    destruct (negb (String.eqb (req_path req) "/")
              && matched (entries app) (toggle_slash (req_path req))); discriminate.
Qed.

Lemma handled_only_for_echo_paths_witness :
  200%Z = 200%Z /\ "GET" = "GET" /\
  ((("/echo/DevOps" = "/echo"
     \/ "/echo/DevOps" = String.append "/echo" (String "010" EmptyString))
    /\ echo_name "DevOps" = hello_world) \/
   exists s, is_segment s = true /\ "/echo/DevOps" = ("/echo/" ++ s)%string
             /\ echo_name "DevOps" = echo_name s).
Proof.
  exact (handled_only_for_echo_paths (GET "/echo/DevOps") 200 (echo_name "DevOps") eq_refl).
Defined.

(** X5: a GET request never gets 405 and never makes the application
    raise. It is answered by a handler of [main.py] with status 200, by
    a page of the framework, by a redirect to the path with its trailing
    slash toggled, or with the default 404. *)
Theorem get_never_405 (path : string) :
  (exists body, answer app (GET path) = Py.Return (Handled 200 body)) \/
  (exists page, In page own_pages /\ answer app (GET path) = Py.Return (Page page)) \/
  answer app (GET path) = Py.Return (Redirect (toggle_slash path)) \/
  answer app (GET path) = Py.Return NotFound.
Proof.
  unfold answer. destruct (find_full (entries app) (GET path)) as [[e kw]|] eqn:E.
  - apply find_full_entries in E.
    destruct E as [[page [Hin [-> _]]]|[r [Hin [-> [_ Hm]]]]];
      cbn [entry_target page_entry route_entry entry_path].
    + right. left. exists page. split; [exact Hin|reflexivity].
    + left. destruct Hin as [<-|[<-|[]]]; cbn [route_endpoint route_path req_path GET] in *.
      * apply regex_match_echo in Hm. destruct Hm as [-> _]. eexists. reflexivity.
      * apply regex_match_echo_name in Hm. destruct Hm as [s [_ [_ ->]]].
        eexists. reflexivity.
  - right. right.
    rewrite (find_full_none_allowed (entries app) (GET path)); [|clear E|exact E].
    + cbn [req_path GET].
      destruct (negb (String.eqb path "/") && matched (entries app) (toggle_slash path));
        [left|right]; reflexivity.
    + intros e He. unfold entries in He. cbn [map List.app own_pages app] in He.
      repeat (destruct He as [<-|He]; [reflexivity|]). contradiction.
Qed.

(** X9: whenever the router of the specification hands a request to a
    handler, the router of the framework hands it to the same handler:
    the reply of the one is the answer of the other. *)
Theorem framework_agrees_on_replies (req : request) (st : Z) (body : Py.dict) :
  dispatch app req = Py.Return (Reply st body) ->
  answer app req = Py.Return (Handled st body).
Proof.
  intros H. apply dispatch_reply_inv in H.
  destruct req as [m p]. cbn [req_method req_path] in H.
  destruct H as [-> [-> [[-> ->]|[s [Hs [-> ->]]]]]]; [reflexivity|].
  unfold answer, entries. rewrite find_full_app, own_pages_not_echo_name.
  cbn [map app route_entry find_full route_method route_path route_endpoint
       entry_path req_path req_method].
  destruct (regex_match "/echo" ("/echo/" ++ s)) as [kw|] eqn:E.
  { exfalso. apply regex_match_echo in E. destruct E as [_ [E|E]];
      cbn [append] in E; discriminate E. }
  unfold regex_match at 1. rewrite (match_path_echo_name_segment s Hs).
  reflexivity.
Qed.

Lemma framework_agrees_on_replies_witness :
  answer app (GET "/echo/DevOps") = Py.Return (Handled 200 (echo_name "DevOps")).
Proof.
  exact (framework_agrees_on_replies (GET "/echo/DevOps") 200 (echo_name "DevOps") eq_refl).
Defined.
